(** * Trade-level calculation of the TradingView/Telegram webhook server

    A shallow embedding of [telegram_webhook_server.py].

    - Python floats are IEEE 754 binary64 numbers: they are modelled by Rocq's
      primitive [float], whose operations are the same machine operations.
    - The values that reach the code come from a JSON payload: [None], booleans,
      integers, floats and strings.  They are the constructors of [pyval]; JSON
      arrays and objects nested inside the payload are not modelled, and the
      request body itself is a JSON object ([gmap string pyval]).
    - Strings are modelled as ASCII text ([String.string]).
    - A Python exception is an explicit [Raise] in the error monad [exc];
      a [try ... except Exception] is a [match] on it. *)

From Stdlib Require Import ZArith Bool List String Ascii Lia Floats.
From stdpp Require Import gmap strings.

Open Scope string_scope.
Open Scope Z_scope.

(* Decimal literals such as 97.81 denote the nearest binary64 number, as
   they do in Python. *)
#[local] Set Warnings "-inexact-float".

(** ** Python values and exceptions *)

Inductive pyval : Type :=
| PNone
| PBool (b : bool)
| PInt (n : Z)
| PFloat (x : float)
| PStr (s : string).

Inductive pyexc : Type :=
| TypeError
| ValueError
| OverflowError
| AttributeError
| ZeroDivisionError
| DeliveryError.

Inductive exc (A : Type) : Type :=
| Ok (a : A)
| Raise (e : pyexc).

Arguments Ok {A} a.
Arguments Raise {A} e.

Definition bind {A B : Type} (m : exc A) (k : A -> exc B) : exc B :=
  match m with
  | Ok a => k a
  | Raise e => Raise e
  end.

Notation "x <- m ;; k" := (bind m (fun x => k))
  (at level 20, m at level 99, k at level 200, only parsing).

(** ** Numbers

    [bool] is a subclass of [int]; arithmetic between an [int] and a [float]
    converts the [int] to the nearest [float] and raises [OverflowError] when
    it is out of range. *)

Inductive number : Type :=
| NInt (n : Z)
| NFloat (x : float).

Definition as_number (v : pyval) : option number :=
  match v with
  | PBool b => Some (NInt (Z.b2z b))
  | PInt n => Some (NInt n)
  | PFloat x => Some (NFloat x)
  | PNone | PStr _ => None
  end.

Definition float_of_Z (n : Z) : exc float :=
  match binary_normalize prec emax n 0 false with
  | S754_infinity _ => Raise OverflowError
  | sf => Ok (SF2Prim sf)
  end.

Definition number_to_float (a : number) : exc float :=
  match a with
  | NInt n => float_of_Z n
  | NFloat x => Ok x
  end.

Definition arith (fz : Z -> Z -> Z) (ff : float -> float -> float)
    (a b : pyval) : exc pyval :=
  match as_number a, as_number b with
  | Some (NInt m), Some (NInt n) => Ok (PInt (fz m n))
  | Some x, Some y =>
      u <- number_to_float x ;;
      v <- number_to_float y ;;
      Ok (PFloat (ff u v))
  | _, _ => Raise TypeError
  end.

Fixpoint str_repeat (s : string) (n : nat) : string :=
  match n with
  | O => ""
  | S k => s ++ str_repeat s k
  end.

(** [a - b] *)
Definition py_sub : pyval -> pyval -> exc pyval := arith Z.sub PrimFloat.sub.

(** [a + b]; two strings are concatenated. *)
Definition py_add (a b : pyval) : exc pyval :=
  match a, b with
  | PStr s, PStr t => Ok (PStr (s ++ t))
  | _, _ => arith Z.add PrimFloat.add a b
  end.

(** [a * b]; a string times an integer is repeated. *)
Definition py_mul (a b : pyval) : exc pyval :=
  match a, as_number b, as_number a, b with
  | PStr s, Some (NInt n), _, _ => Ok (PStr (str_repeat s (Z.to_nat n)))
  | _, _, Some (NInt n), PStr s => Ok (PStr (str_repeat s (Z.to_nat n)))
  | _, _, _, _ => arith Z.mul PrimFloat.mul a b
  end.

(** The nearest float to [m / n], for [n <> 0]. *)
Definition Z_div_float (m n : Z) : spec_float :=
  let s := xorb (m <? 0) (n <? 0) in
  match Z.abs m, Z.abs n with
  | Z.pos p, Z.pos q =>
      SFdiv prec emax (S754_finite s p 0) (S754_finite false q 0)
  | _, _ => S754_zero s
  end.

(** [a / b] *)
Definition py_truediv (a b : pyval) : exc pyval :=
  match as_number a, as_number b with
  | Some (NInt m), Some (NInt n) =>
      if n =? 0 then Raise ZeroDivisionError
      else match Z_div_float m n with
           | S754_infinity _ => Raise OverflowError
           | sf => Ok (PFloat (SF2Prim sf))
           end
  | Some x, Some y =>
      u <- number_to_float x ;;
      v <- number_to_float y ;;
      if (v =? 0)%float then Raise ZeroDivisionError
      else Ok (PFloat (u / v)%float)
  | _, _ => Raise TypeError
  end.

(** ** Comparisons

    Python compares an [int] with a [float] exactly, not by conversion. *)

Definition float_cmp_Z (x : float) (n : Z) : option comparison :=
  match Prim2SF x with
  | S754_nan => None
  | S754_infinity s => Some (if s then Lt else Gt)
  | S754_zero _ => Some (0 ?= n)
  | S754_finite s m e =>
      let v := cond_Zopp s (Z.pos m) in
      Some (if 0 <=? e then (v * 2 ^ e ?= n) else (v ?= n * 2 ^ (- e)))
  end.

Definition number_lt (a b : number) : bool :=
  match a, b with
  | NInt m, NInt n => m <? n
  | NFloat x, NFloat y => (x <? y)%float
  | NFloat x, NInt n =>
      match float_cmp_Z x n with Some Lt => true | _ => false end
  | NInt m, NFloat y =>
      match float_cmp_Z y m with Some Gt => true | _ => false end
  end.


(** [a < b] *)
Definition py_lt (a b : pyval) : exc bool :=
  match a, b with
  | PStr s, PStr t => Ok (String.ltb s t)
  | _, _ =>
      match as_number a, as_number b with
      | Some x, Some y => Ok (number_lt x y)
      | _, _ => Raise TypeError
      end
  end.

(** [a > b] *)
Definition py_gt (a b : pyval) : exc bool := py_lt b a.


(** Truth value of an object, as [if], [and] and [or] test it. *)
Definition py_truthy (v : pyval) : bool :=
  match v with
  | PNone => false
  | PBool b => b
  | PInt n => negb (n =? 0)
  | PFloat x => negb (x =? 0)%float
  | PStr s => negb (String.eqb s "")
  end.

(** ** [round(x, ndigits)]

    For a float, the exact binary value is rounded half-to-even to [ndigits]
    decimals and the nearest float to that decimal is returned (CPython's
    correctly rounded [float.__round__]); infinities and NaN are returned as
    they are.  An [int] is returned unchanged. *)

Definition round_half_even (n d : Z) : Z :=
  let q := n / d in
  match 2 * (n mod d) ?= d with
  | Lt => q
  | Gt => q + 1
  | Eq => if Z.even q then q else q + 1
  end.

Definition float_round (x : float) (ndigits : nat) : float :=
  match Prim2SF x with
  | S754_finite s m e =>
      let p := 10 ^ Z.of_nat ndigits in
      let q := if 0 <=? e then Z.pos m * 2 ^ e * p
               else round_half_even (Z.pos m * p) (2 ^ (- e)) in
      match q with
      | Z.pos q' =>
          SF2Prim (SFdiv prec emax (S754_finite s q' 0)
                                   (S754_finite false (Z.to_pos p) 0))
      | _ => if s then neg_zero else zero
      end
  | _ => x
  end.

Definition py_round (v : pyval) (ndigits : nat) : exc pyval :=
  match v with
  | PFloat x => Ok (PFloat (float_round x ndigits))
  | PInt n => Ok (PInt n)
  | PBool b => Ok (PInt (Z.b2z b))
  | PNone | PStr _ => Raise TypeError
  end.

(** ** Dictionaries and strings *)

(** [d.get(k, dflt)] *)
Definition dict_get (d : gmap string pyval) (k : string) (dflt : pyval) : pyval :=
  default dflt (d !! k).

Definition ascii_upper (c : ascii) : ascii :=
  let n := nat_of_ascii c in
  if ((97 <=? n) && (n <=? 122))%nat then ascii_of_nat (n - 32) else c.

(** [s.upper()] *)
Fixpoint str_upper (s : string) : string :=
  match s with
  | EmptyString => EmptyString
  | String c r => String (ascii_upper c) (str_upper r)
  end.

(** [needle in hay] *)
Fixpoint str_in (needle hay : string) : bool :=
  String.prefix needle hay ||
  match hay with
  | EmptyString => false
  | String _ r => str_in needle r
  end.

(** ** The volume-profile placeholder

    [calculate_volume_profile_levels(ticker)]: the body of its [try] block is
    the single [return None, None, None]; no caller uses it. *)

Definition calculate_volume_profile_levels (ticker : pyval)
    : pyval * pyval * pyval := (PNone, PNone, PNone).

(** ** The trade-level calculator *)

Definition TICK_SIZE : float := 0.25%float.

(** The values a branch of [calculate_trade_levels] has computed when it
    reaches its risk-reward test; [structure] records whether the targets are
    the reference levels ([true]) or the 2:1 / 4:1 fallback ([false]). *)
Record plan : Type := Plan {
  sl : pyval;
  risk : pyval;
  structure : bool;
  tp1 : pyval;
  tp2 : pyval
}.

Definition rejected : pyval * pyval * pyval := (PNone, PNone, PNone).

(** [poc and ref and poc > entry_price and ref > poc] (and its mirror),
    evaluated left to right with short-circuit. *)
Definition structure_test (gt : pyval -> pyval -> exc bool)
    (poc ref entry_price : pyval) : exc bool :=
  if py_truthy poc then
    if py_truthy ref then
      b <- gt poc entry_price ;;
      if b then gt ref poc else Ok false
    else Ok false
  else Ok false.

(** Lines 48-61. *)
Definition long_plan (entry_price : pyval) (current_data : gmap string pyval)
    : exc plan :=
  sl <- py_sub (dict_get current_data "low" entry_price) (PFloat TICK_SIZE) ;;
  risk <- py_sub entry_price sl ;;
  let poc := dict_get current_data "poc" PNone in
  let vah := dict_get current_data "vah" PNone in
  c <- structure_test py_gt poc vah entry_price ;;
  if c then Ok (Plan sl risk true poc vah)
  else
    r2 <- py_mul risk (PFloat 2) ;;
    tp1 <- py_add entry_price r2 ;;
    r4 <- py_mul risk (PFloat 4) ;;
    tp2 <- py_add entry_price r4 ;;
    Ok (Plan sl risk false tp1 tp2).

(** Lines 72-85. *)
Definition short_plan (entry_price : pyval) (current_data : gmap string pyval)
    : exc plan :=
  sl <- py_add (dict_get current_data "high" entry_price) (PFloat TICK_SIZE) ;;
  risk <- py_sub sl entry_price ;;
  let poc := dict_get current_data "poc" PNone in
  let val := dict_get current_data "val" PNone in
  c <- structure_test py_lt poc val entry_price ;;
  if c then Ok (Plan sl risk true poc val)
  else
    r2 <- py_mul risk (PFloat 2) ;;
    tp1 <- py_sub entry_price r2 ;;
    r4 <- py_mul risk (PFloat 4) ;;
    tp2 <- py_sub entry_price r4 ;;
    Ok (Plan sl risk false tp1 tp2).

Definition is_long (direction : string) : bool := String.eqb direction "LONG".

Definition trade_plan (direction : string) (entry_price : pyval)
    (current_data : gmap string pyval) : exc plan :=
  if is_long direction then long_plan entry_price current_data
  else short_plan entry_price current_data.

(** [tp1 - entry_price] for a long, [entry_price - tp1] otherwise. *)
Definition reward_of (direction : string) (entry_price : pyval) (p : plan)
    : exc pyval :=
  if is_long direction then py_sub (tp1 p) entry_price
  else py_sub entry_price (tp1 p).

(** Lines 63-68 and 87-92: the risk-reward test and the rounded result. *)
Definition gate (direction : string) (entry_price : pyval) (p : plan)
    : exc (pyval * pyval * pyval) :=
  reward <- reward_of direction entry_price p ;;
  lt <- py_lt reward (risk p) ;;
  if lt then Ok rejected
  else
    s <- py_round (sl p) 2 ;;
    t1 <- py_round (tp1 p) 2 ;;
    t2 <- py_round (tp2 p) 2 ;;
    Ok (s, t1, t2).

(** The body of the [try] block. *)
Definition try_levels (direction : string) (entry_price : pyval)
    (current_data : gmap string pyval) : exc (pyval * pyval * pyval) :=
  p <- trade_plan direction entry_price current_data ;;
  gate direction entry_price p.

(** [calculate_trade_levels(direction, entry_price, current_data)]: the
    [except Exception] handler turns every exception into the rejected
    result. *)
Definition calculate_trade_levels (direction : string) (entry_price : pyval)
    (current_data : gmap string pyval) : pyval * pyval * pyval :=
  match try_levels direction entry_price current_data with
  | Ok r => r
  | Raise _ => rejected
  end.

(** ** The webhook endpoint

    The request body is a JSON object.  Three things lie outside the model and
    are parameters: the conversion of a string to a float, the delivery of a
    text by the Telegram bot (it returns or raises) and the rendering of the
    entry notification (an f-string over the levels and the clock). *)

Inductive response : Type :=
| Management                                      (* status success, type management *)
| RejectedRR                                      (* status rejected, reason RR < 1:1 *)
| Entry (entry : float) (sl tp1 tp2 rr : pyval)   (* status success, type entry, levels *)
| UnknownAlert                                    (* status unknown_alert *)
| Error (e : pyexc).                              (* status error, message *)

Definition http_status (r : response) : Z :=
  match r with
  | Management | RejectedRR | Entry _ _ _ _ _ => 200
  | UnknownAlert => 400
  | Error _ => 500
  end.

(** [s.upper()] on an object: only a string has the method. *)
Definition py_upper (v : pyval) : exc string :=
  match v with
  | PStr s => Ok (str_upper s)
  | _ => Raise AttributeError
  end.

(** [k in v] for a string [k]. *)
Definition py_in (k : string) (v : pyval) : exc bool :=
  match v with
  | PStr s => Ok (str_in k s)
  | _ => Raise TypeError
  end.

(** [any(k in v for k in ks)] *)
Fixpoint any_keyword (ks : list string) (v : pyval) : exc bool :=
  match ks with
  | [] => Ok false
  | k :: r => b <- py_in k v ;; if b then Ok true else any_keyword r v
  end.

Definition management_keywords : list string := ["TP1"; "TP2"; "BE"; "SL"].

(** Lines 113-121: the direction and the action word, [None] when neither
    word is found. *)
Definition derive_direction (alert_message : pyval)
    : exc (option (string * string)) :=
  u <- py_upper alert_message ;;
  if str_in "BUY" u then Ok (Some ("LONG", "BUY"))
  else
    u' <- py_upper alert_message ;;
    if str_in "SELL" u' then Ok (Some ("SHORT", "SELL")) else Ok None.

(** Lines 132-138. *)
Definition market_data (price : float) (data : gmap string pyval)
    : gmap string pyval :=
  list_to_map
    [ ("high", dict_get data "high" (PFloat (price + 2)));
      ("low", dict_get data "low" (PFloat (price - 2)));
      ("vah", dict_get data "vah" PNone);
      ("poc", dict_get data "poc" PNone);
      ("val", dict_get data "val" PNone) ].

Section Webhook.

Variable float_of_str : string -> exc float.
Variable bot_send_message : string -> option string -> exc unit.
Variable entry_text :
  string -> pyval -> float -> pyval -> pyval -> pyval -> pyval -> string.

(** [float(v)] *)
Definition py_float (v : pyval) : exc float :=
  match v with
  | PFloat x => Ok x
  | PInt n => float_of_Z n
  | PBool b => float_of_Z (Z.b2z b)
  | PStr s => float_of_str s
  | PNone => Raise TypeError
  end.

(** Lines 130-187: an entry alert. *)
Definition entry_alert (direction action : string) (ticker : pyval)
    (price : float) (data : gmap string pyval) : exc response :=
  let current_data := market_data price data in
  let '(sl, tp1, tp2) :=
    calculate_trade_levels direction (PFloat price) current_data in
  match sl with
  | PNone => Ok RejectedRR
  | _ =>
      risk <- (if is_long direction then py_sub (PFloat price) sl
               else py_sub sl (PFloat price)) ;;
      reward_tp2 <- (if is_long direction then py_sub tp2 (PFloat price)
                     else py_sub (PFloat price) tp2) ;;
      pos <- py_gt risk (PInt 0) ;;
      rr <- (if pos then q <- py_truediv reward_tp2 risk ;; py_round q 1
             else Ok (PInt 0)) ;;
      _ <- bot_send_message
             (entry_text action ticker price sl tp1 tp2 rr) (Some "HTML") ;;
      Ok (Entry price sl tp1 tp2 rr)
  end.

(** The body of the [try] block of [webhook]. *)
Definition try_webhook (data : gmap string pyval) : exc response :=
  let ticker := dict_get data "ticker" (PStr "N/A") in
  price <- py_float (dict_get data "close" (PInt 0)) ;;
  let alert_message := dict_get data "message" (PStr "") in
  direction <- derive_direction alert_message ;;
  management <- any_keyword management_keywords alert_message ;;
  if management then
    _ <- (match alert_message with
          | PStr text => bot_send_message text None
          | _ => Raise TypeError
          end) ;;
    Ok Management
  else
    match direction with
    | Some (direction, action) =>
        entry_alert direction action ticker price data
    | None => Ok UnknownAlert
    end.

(** [webhook()]: every exception becomes the error response. *)
Definition webhook (data : gmap string pyval) : response :=
  match try_webhook data with
  | Ok r => r
  | Raise e => Error e
  end.

End Webhook.

(** ** Auxiliary notions used to state the properties *)

(** The float an operand of mixed arithmetic stands for. *)
Definition to_float (v : pyval) : exc float :=
  match as_number v with
  | Some a => number_to_float a
  | None => Raise TypeError
  end.

(** A reference level is provided when the dictionary holds a value other
    than [None] for it. *)
Definition provided (d : gmap string pyval) (k : string) : Prop :=
  exists v, d !! k = Some v /\ v <> PNone.

(** [x] is a whole number of quarters (ticks of 0.25). *)
Definition on_tick_grid (x : float) : bool :=
  match Prim2SF x with
  | S754_zero _ => true
  | S754_finite _ m e => (-2 <=? e) || (Z.pos m mod 2 ^ (- e - 2) =? 0)
  | _ => false
  end.

(** ** Collaborators for concrete runs

    A string-to-float conversion that accepts nothing, a bot that delivers
    every text, and a rendering that keeps only the action word. *)

Definition no_float_of_str (s : string) : exc float := Raise ValueError.

Definition delivering_bot (text : string) (parse_mode : option string)
    : exc unit := Ok tt.

Definition action_only_text (action : string) (ticker : pyval) (price : float)
    (sl tp1 tp2 rr : pyval) : string := action.

(** * Properties *)

(** ** The error monad *)

Lemma bind_Ok {A B : Type} (m : exc A) (k : A -> exc B) (b : B) :
  bind m k = Ok b -> exists a, m = Ok a /\ k a = Ok b.
Proof. destruct m as [a|e]; simpl; intros H; [eauto | discriminate]. Qed.

Ltac inv_bind H :=
  let a := fresh "a" in
  let Ha := fresh "Ha" in
  apply bind_Ok in H; destruct H as (a & Ha & H).

(** ** Arithmetic with a float operand

    Once one operand is a float, the other is converted with [to_float] and
    the result is the float operation. *)

Lemma arith_float_r fz ff (a : pyval) (c : float) :
  arith fz ff a (PFloat c) = (x <- to_float a ;; Ok (PFloat (ff x c))).
Proof. destruct a as [|b|n|x|s]; reflexivity. Qed.

Lemma arith_float_l fz ff (c : float) (b : pyval) :
  arith fz ff (PFloat c) b = (y <- to_float b ;; Ok (PFloat (ff c y))).
Proof. destruct b as [|b|n|x|s]; reflexivity. Qed.

Lemma py_add_float_r (a : pyval) (c : float) :
  py_add a (PFloat c) = (x <- to_float a ;; Ok (PFloat (x + c)%float)).
Proof. destruct a as [|b|n|x|s]; reflexivity. Qed.

Lemma py_sub_float_r (a : pyval) (c : float) :
  py_sub a (PFloat c) = (x <- to_float a ;; Ok (PFloat (x - c)%float)).
Proof. apply arith_float_r. Qed.

Lemma py_sub_float_l (c : float) (b : pyval) :
  py_sub (PFloat c) b = (y <- to_float b ;; Ok (PFloat (c - y)%float)).
Proof. apply arith_float_l. Qed.

Lemma py_mul_float (r c : float) :
  py_mul (PFloat r) (PFloat c) = Ok (PFloat (r * c)%float).
Proof. reflexivity. Qed.

Lemma to_float_number (v : pyval) (x : float) :
  to_float v = Ok x -> as_number v <> None.
Proof. unfold to_float. destruct (as_number v); [discriminate | discriminate]. Qed.

(** Ordering two objects succeeds on two numbers and never on a number and
    something else. *)
Lemma py_lt_numbers (a b : pyval) (r : bool) :
  py_lt a b = Ok r ->
  (as_number a <> None <-> as_number b <> None).
Proof.
  destruct a as [|b1|n1|x1|s1], b as [|b2|n2|x2|s2]; simpl; intros H;
    try discriminate; split; intros N; try discriminate; exact N.
Qed.

Lemma py_lt_total (a b : pyval) :
  as_number a <> None -> as_number b <> None ->
  exists r, py_lt a b = Ok r.
Proof.
  destruct a as [|b1|n1|x1|s1], b as [|b2|n2|x2|s2]; simpl; intros Ha Hb;
    try (exfalso; apply Ha; reflexivity); try (exfalso; apply Hb; reflexivity);
    eexists; reflexivity.
Qed.

Lemma py_round_number (v : pyval) (n : nat) :
  as_number v <> None -> exists r, py_round v n = Ok r /\ r <> PNone.
Proof.
  destruct v as [|b|z|x|s]; simpl; intros H;
    try (exfalso; apply H; reflexivity); eexists; split;
    try reflexivity; discriminate.
Qed.

(** ** What a plan holds *)

Lemma structure_test_true gt (poc ref entry_price : pyval) :
  structure_test gt poc ref entry_price = Ok true <->
  py_truthy poc = true /\ py_truthy ref = true /\
  gt poc entry_price = Ok true /\ gt ref poc = Ok true.
Proof.
  unfold structure_test.
  destruct (py_truthy poc), (py_truthy ref); simpl;
    try (split; [discriminate | intros (? & ? & _); discriminate]).
  destruct (gt poc entry_price) as [[|]|e]; simpl.
  - split; [intros H; auto | intros (_ & _ & _ & H); exact H].
  - split; [discriminate | intros (_ & _ & H & _); discriminate].
  - split; [discriminate | intros (_ & _ & H & _); discriminate].
Qed.

Lemma long_plan_inv (entry_price : pyval) (current_data : gmap string pyval)
    (p : plan) :
  long_plan entry_price current_data = Ok p ->
  exists low e : float,
    to_float (dict_get current_data "low" entry_price) = Ok low /\
    to_float entry_price = Ok e /\
    sl p = PFloat (low - TICK_SIZE) /\
    risk p = PFloat (e - (low - TICK_SIZE)) /\
    structure_test py_gt (dict_get current_data "poc" PNone)
      (dict_get current_data "vah" PNone) entry_price = Ok (structure p) /\
    if structure p then
      tp1 p = dict_get current_data "poc" PNone /\
      tp2 p = dict_get current_data "vah" PNone
    else
      tp1 p = PFloat (e + (e - (low - TICK_SIZE)) * 2) /\
      tp2 p = PFloat (e + (e - (low - TICK_SIZE)) * 4).
Proof.
  unfold long_plan. intros H.
  rewrite py_sub_float_r in H.
  destruct (to_float (dict_get current_data "low" entry_price)) as [low|];
    [cbn [bind] in H | discriminate].
  rewrite py_sub_float_r in H.
  destruct (to_float entry_price) as [e|] eqn:He; [cbn [bind] in H | discriminate].
  exists low, e.
  destruct (structure_test py_gt _ _ entry_price) as [[|]|]; cbn [bind] in H;
    [ | | discriminate].
  - injection H as <-. simpl. auto 10.
  - rewrite !py_mul_float in H. cbn [bind] in H.
    rewrite !py_add_float_r, He in H. cbn [bind] in H.
    injection H as <-. simpl. auto 10.
Qed.

Lemma short_plan_inv (entry_price : pyval) (current_data : gmap string pyval)
    (p : plan) :
  short_plan entry_price current_data = Ok p ->
  exists high e : float,
    to_float (dict_get current_data "high" entry_price) = Ok high /\
    to_float entry_price = Ok e /\
    sl p = PFloat (high + TICK_SIZE) /\
    risk p = PFloat (high + TICK_SIZE - e) /\
    structure_test py_lt (dict_get current_data "poc" PNone)
      (dict_get current_data "val" PNone) entry_price = Ok (structure p) /\
    if structure p then
      tp1 p = dict_get current_data "poc" PNone /\
      tp2 p = dict_get current_data "val" PNone
    else
      tp1 p = PFloat (e - (high + TICK_SIZE - e) * 2) /\
      tp2 p = PFloat (e - (high + TICK_SIZE - e) * 4).
Proof.
  unfold short_plan. intros H.
  rewrite py_add_float_r in H.
  destruct (to_float (dict_get current_data "high" entry_price)) as [high|];
    [cbn [bind] in H | discriminate].
  rewrite py_sub_float_l in H.
  destruct (to_float entry_price) as [e|] eqn:He; [cbn [bind] in H | discriminate].
  exists high, e.
  destruct (structure_test py_lt _ _ entry_price) as [[|]|]; cbn [bind] in H;
    [ | | discriminate].
  - injection H as <-. simpl. auto 10.
  - rewrite !py_mul_float in H. cbn [bind] in H.
    rewrite !py_sub_float_r, He in H. cbn [bind] in H.
    injection H as <-. simpl. auto 10.
Qed.

(** ** Accepted signals *)

(** A result other than the rejected one comes from a plan that passed the
    risk-reward test, and is that plan's stop and targets after [round]. *)
Lemma accepted_inv (direction : string) (entry_price : pyval)
    (current_data : gmap string pyval) (r : pyval * pyval * pyval) :
  calculate_trade_levels direction entry_price current_data = r ->
  r <> rejected ->
  exists (p : plan) (reward s t1 t2 : pyval),
    trade_plan direction entry_price current_data = Ok p /\
    reward_of direction entry_price p = Ok reward /\
    py_lt reward (risk p) = Ok false /\
    py_round (sl p) 2 = Ok s /\
    py_round (tp1 p) 2 = Ok t1 /\
    py_round (tp2 p) 2 = Ok t2 /\
    r = (s, t1, t2).
Proof.
  unfold calculate_trade_levels, try_levels. intros H Hr.
  destruct (trade_plan direction entry_price current_data) as [p|e] eqn:Hp;
    cbn [bind] in H; [ | congruence].
  unfold gate in H.
  destruct (reward_of direction entry_price p) as [reward|e] eqn:Hw;
    cbn [bind] in H; [ | congruence].
  destruct (py_lt reward (risk p)) as [[|]|e] eqn:Hlt; cbn [bind] in H;
    [congruence | | congruence].
  destruct (py_round (sl p) 2) as [s|e] eqn:Hs; cbn [bind] in H;
    [ | congruence].
  destruct (py_round (tp1 p) 2) as [t1|e] eqn:Ht1; cbn [bind] in H;
    [ | congruence].
  destruct (py_round (tp2 p) 2) as [t2|e] eqn:Ht2; cbn [bind] in H;
    [ | congruence].
  exists p, reward, s, t1, t2. auto 10.
Qed.

Lemma trade_plan_long (direction : string) (entry_price : pyval)
    (current_data : gmap string pyval) :
  is_long direction = true ->
  trade_plan direction entry_price current_data
  = long_plan entry_price current_data.
Proof. unfold trade_plan. intros ->. reflexivity. Qed.

Lemma trade_plan_short (direction : string) (entry_price : pyval)
    (current_data : gmap string pyval) :
  is_long direction = false ->
  trade_plan direction entry_price current_data
  = short_plan entry_price current_data.
Proof. unfold trade_plan. intros ->. reflexivity. Qed.

(** In a plan the stop and the risk are floats and the entry price and both
    targets are numbers. *)
Lemma plan_numbers (direction : string) (entry_price : pyval)
    (current_data : gmap string pyval) (p : plan) :
  trade_plan direction entry_price current_data = Ok p ->
  (exists s, sl p = PFloat s) /\ (exists r, risk p = PFloat r) /\
  as_number entry_price <> None /\
  as_number (tp1 p) <> None /\ as_number (tp2 p) <> None.
Proof.
  intros H. destruct (is_long direction) eqn:D.
  - rewrite trade_plan_long in H by exact D.
    apply long_plan_inv in H.
    destruct H as (low & e & _ & He & Hs & Hr & Hc & Ht).
    apply to_float_number in He.
    split; [eauto|]. split; [eauto|]. split; [exact He|].
    destruct (structure p).
    + apply structure_test_true in Hc. destruct Hc as (_ & _ & H1 & H2).
      destruct Ht as [-> ->]. unfold py_gt in H1, H2.
      apply py_lt_numbers in H1. apply py_lt_numbers in H2.
      assert (N : as_number (dict_get current_data "poc" PNone) <> None)
        by (apply H1; exact He).
      split; [exact N | apply H2; exact N].
    + destruct Ht as [-> ->]. split; discriminate.
  - rewrite trade_plan_short in H by exact D.
    apply short_plan_inv in H.
    destruct H as (high & e & _ & He & Hs & Hr & Hc & Ht).
    apply to_float_number in He.
    split; [eauto|]. split; [eauto|]. split; [exact He|].
    destruct (structure p).
    + apply structure_test_true in Hc. destruct Hc as (_ & _ & H1 & H2).
      destruct Ht as [-> ->].
      apply py_lt_numbers in H1. apply py_lt_numbers in H2.
      assert (N : as_number (dict_get current_data "poc" PNone) <> None)
        by (apply H1; exact He).
      split; [exact N | apply H2; exact N].
    + destruct Ht as [-> ->]. split; discriminate.
Qed.

(** A plan whose reward could be computed and is not below the risk is
    returned, rounded. *)
Lemma gate_passes (direction : string) (entry_price : pyval)
    (current_data : gmap string pyval) (p : plan) (reward : pyval) :
  trade_plan direction entry_price current_data = Ok p ->
  reward_of direction entry_price p = Ok reward ->
  py_lt reward (risk p) = Ok false ->
  exists s t1 t2 : pyval,
    py_round (sl p) 2 = Ok s /\ py_round (tp1 p) 2 = Ok t1 /\
    py_round (tp2 p) 2 = Ok t2 /\ s <> PNone /\
    calculate_trade_levels direction entry_price current_data = (s, t1, t2).
Proof.
  intros Hp Hw Hlt.
  destruct (plan_numbers _ _ _ _ Hp) as ((s0 & Hs) & _ & _ & N1 & N2).
  destruct (py_round_number (tp1 p) 2 N1) as (t1 & Ht1 & _).
  destruct (py_round_number (tp2 p) 2 N2) as (t2 & Ht2 & _).
  exists (PFloat (float_round s0 2)), t1, t2.
  rewrite Hs. split; [reflexivity|]. split; [exact Ht1|].
  split; [exact Ht2|]. split; [discriminate|].
  unfold calculate_trade_levels, try_levels. rewrite Hp. cbn [bind].
  unfold gate. rewrite Hw. cbn [bind]. rewrite Hlt. cbn [bind].
  rewrite Hs, Ht1, Ht2. reflexivity.
Qed.

Lemma gate_rejects (direction : string) (entry_price : pyval)
    (current_data : gmap string pyval) (p : plan) (reward : pyval) :
  trade_plan direction entry_price current_data = Ok p ->
  reward_of direction entry_price p = Ok reward ->
  py_lt reward (risk p) = Ok true ->
  calculate_trade_levels direction entry_price current_data = rejected.
Proof.
  intros Hp Hw Hlt.
  unfold calculate_trade_levels, try_levels. rewrite Hp. cbn [bind].
  unfold gate. rewrite Hw. cbn [bind]. rewrite Hlt. reflexivity.
Qed.

(** The reward of a plan is a number, so it can be ordered against the
    risk. *)
Lemma reward_comparable (direction : string) (entry_price : pyval)
    (current_data : gmap string pyval) (p : plan) (reward : pyval) :
  trade_plan direction entry_price current_data = Ok p ->
  reward_of direction entry_price p = Ok reward ->
  exists b, py_lt reward (risk p) = Ok b.
Proof.
  intros Hp Hw.
  destruct (plan_numbers _ _ _ _ Hp) as (_ & (r & Hr) & _).
  rewrite Hr. apply py_lt_total; [ | discriminate].
  unfold reward_of, py_sub, arith in Hw.
  destruct (is_long direction);
    destruct (as_number (tp1 p)) as [[?|?]|];
    destruct (as_number entry_price) as [[?|?]|]; try discriminate;
    try (injection Hw as <-; discriminate);
    try (inv_bind Hw; inv_bind Hw; injection Hw as <-; discriminate).
Qed.

(** ** The stop (C4) *)

(** C4: for every accepted signal the returned stop is the bar low minus the
    tick size 0.25, rounded to 2 decimals, when the direction is LONG, and the
    bar high plus 0.25, rounded to 2 decimals, otherwise (SHORT).  The bar low
    and high are [current_data.get('low', entry_price)] and
    [current_data.get('high', entry_price)]. *)
Theorem stop_is_one_tick_beyond_the_bar (direction : string)
    (entry_price : pyval) (current_data : gmap string pyval)
    (s t1 t2 : pyval) :
  calculate_trade_levels direction entry_price current_data = (s, t1, t2) ->
  (s, t1, t2) <> rejected ->
  if is_long direction then
    exists low : float,
      to_float (dict_get current_data "low" entry_price) = Ok low /\
      s = PFloat (float_round (low - 0.25) 2)
  else
    exists high : float,
      to_float (dict_get current_data "high" entry_price) = Ok high /\
      s = PFloat (float_round (high + 0.25) 2).
Proof.
  intros H Hr.
  destruct (accepted_inv _ _ _ _ H Hr)
    as (p & reward & s' & t1' & t2' & Hp & _ & _ & Hs & _ & _ & E).
  injection E as -> -> ->.
  destruct (is_long direction) eqn:D.
  - rewrite trade_plan_long in Hp by exact D.
    apply long_plan_inv in Hp. destruct Hp as (low & e & Hl & _ & Hsl & _).
    exists low. split; [exact Hl|].
    rewrite Hsl in Hs. simpl in Hs. injection Hs as <-. reflexivity.
  - rewrite trade_plan_short in Hp by exact D.
    apply short_plan_inv in Hp. destruct Hp as (high & e & Hh & _ & Hsl & _).
    exists high. split; [exact Hh|].
    rewrite Hsl in Hs. simpl in Hs. injection Hs as <-. reflexivity.
Qed.

Lemma stop_is_one_tick_beyond_the_bar_witness :
  calculate_trade_levels "SHORT" (PFloat 100) {[ "high" := PFloat 100.5 ]}
    = (PFloat 100.75, PFloat 98.5, PFloat 97) /\
  exists high : float,
    to_float (dict_get {[ "high" := PFloat 100.5 ]} "high" (PFloat 100))
      = Ok high /\
    PFloat 100.75 = PFloat (float_round (high + 0.25) 2).
Proof.
  split; [vm_compute; reflexivity|].
  apply (stop_is_one_tick_beyond_the_bar "SHORT" (PFloat 100)
           {[ "high" := PFloat 100.5 ]} (PFloat 100.75) (PFloat 98.5)
           (PFloat 97)).
  - vm_compute. reflexivity.
  - discriminate.
Defined.

(** ** Exceptions (C6) *)

(** C6: whenever the level computation raises an exception,
    [calculate_trade_levels] returns the rejected result
    [(None, None, None)]; its result is always a triple, never an
    exception. *)
Theorem exception_is_rejection (direction : string) (entry_price : pyval)
    (current_data : gmap string pyval) (e : pyexc) :
  try_levels direction entry_price current_data = Raise e ->
  calculate_trade_levels direction entry_price current_data
  = (PNone, PNone, PNone).
Proof. unfold calculate_trade_levels. intros ->. reflexivity. Qed.

Lemma exception_is_rejection_witness :
  try_levels "LONG" (PFloat 100) {[ "low" := PStr "n/a" ]} = Raise TypeError /\
  calculate_trade_levels "LONG" (PFloat 100) {[ "low" := PStr "n/a" ]}
  = (PNone, PNone, PNone).
Proof.
  split; [vm_compute; reflexivity|].
  apply (exception_is_rejection "LONG" (PFloat 100)
           {[ "low" := PStr "n/a" ]} TypeError).
  vm_compute. reflexivity.
Defined.

(** ** The risk-reward test (C2) *)








(** ** Degenerate bars (C1) *)







(** Doubling a negative finite float is exact (or overflows to minus
    infinity), so the double lies strictly below the float. *)













(** The two fallback cases of the amended C1 on concrete bars: LONG with
    entry 100 and low 105 (risk -4.75, reward -9.5) is rejected, SHORT with
    entry 100 and high 99.75 (risk 0, reward 0) is accepted. *)
Example fallback_degenerate_bars :
  calculate_trade_levels "LONG" (PFloat 100) {[ "low" := PFloat 105 ]}
    = rejected /\
  reward_of "LONG" (PFloat 100)
      (Plan (PFloat 104.75) (PFloat (-4.75)) false (PFloat 90.5) (PFloat 81))
    = Ok (PFloat (-9.5)) /\
  calculate_trade_levels "SHORT" (PFloat 100) {[ "high" := PFloat 99.75 ]}
    = (PFloat 100, PFloat 100, PFloat 100).
Proof. repeat split; vm_compute; reflexivity. Qed.

(** ** The final adjustment (C7) *)

(** C7, as stated, fails: with entry 100 and bar low 98.0625 a LONG signal
    is accepted with the stop 97.81, which is not a multiple of 0.25 (the
    unrounded stop is 97.8125), and the same rounding to 2 decimals moved
    target1 from 104.375 to 104.38. *)
Lemma stop_is_not_snapped_to_the_tick_grid :
  let cd : gmap string pyval := {[ "low" := PFloat 98.0625 ]} in
  trade_plan "LONG" (PFloat 100) cd
    = Ok (Plan (PFloat 97.8125) (PFloat 2.1875) false
            (PFloat 104.375) (PFloat 108.75)) /\
  calculate_trade_levels "LONG" (PFloat 100) cd
    = (PFloat 97.81, PFloat 104.38, PFloat 108.75) /\
  on_tick_grid 97.81 = false /\
  (104.38 =? 104.375)%float = false.
Proof. intros cd. repeat split; vm_compute; reflexivity. Qed.

(** C7, amended: for every accepted signal the only final adjustment is
    [round(_, 2)], applied alike to the stop and to both targets of the plan;
    the tick size 0.25 is the distance of the unrounded stop from the bar low
    or high; and the risk is computed from that unrounded stop. *)
Theorem levels_are_rounded_to_two_decimals (direction : string)
    (entry_price : pyval) (current_data : gmap string pyval)
    (r : pyval * pyval * pyval) :
  calculate_trade_levels direction entry_price current_data = r ->
  r <> rejected ->
  exists (p : plan) (s t1 t2 : pyval),
    trade_plan direction entry_price current_data = Ok p /\
    py_round (sl p) 2 = Ok s /\ py_round (tp1 p) 2 = Ok t1 /\
    py_round (tp2 p) 2 = Ok t2 /\ r = (s, t1, t2) /\
    if is_long direction then
      py_sub (dict_get current_data "low" entry_price) (PFloat 0.25)
        = Ok (sl p) /\
      py_sub entry_price (sl p) = Ok (risk p)
    else
      py_add (dict_get current_data "high" entry_price) (PFloat 0.25)
        = Ok (sl p) /\
      py_sub (sl p) entry_price = Ok (risk p).
Proof.
  intros H Hr.
  destruct (accepted_inv _ _ _ _ H Hr)
    as (p & reward & s & t1 & t2 & Hp & _ & _ & Hs & Ht1 & Ht2 & E).
  exists p, s, t1, t2. repeat (split; [assumption|]).
  destruct (is_long direction) eqn:D.
  - rewrite trade_plan_long in Hp by exact D.
    apply long_plan_inv in Hp.
    destruct Hp as (low & e & Hl & He & Hsl & Hrk & _).
    rewrite Hsl, Hrk, !py_sub_float_r, Hl, He. split; reflexivity.
  - rewrite trade_plan_short in Hp by exact D.
    apply short_plan_inv in Hp.
    destruct Hp as (high & e & Hh & He & Hsl & Hrk & _).
    rewrite Hsl, Hrk, py_add_float_r, py_sub_float_l, Hh, He.
    split; reflexivity.
Qed.

Lemma levels_are_rounded_to_two_decimals_witness :
  let cd : gmap string pyval := {[ "low" := PFloat 98.0625 ]} in
  let r := (PFloat 97.81, PFloat 104.38, PFloat 108.75) in
  calculate_trade_levels "LONG" (PFloat 100) cd = r /\
  exists (p : plan) (s t1 t2 : pyval),
    trade_plan "LONG" (PFloat 100) cd = Ok p /\
    py_round (sl p) 2 = Ok s /\ py_round (tp1 p) 2 = Ok t1 /\
    py_round (tp2 p) 2 = Ok t2 /\ r = (s, t1, t2) /\
    py_sub (dict_get cd "low" (PFloat 100)) (PFloat 0.25) = Ok (sl p) /\
    py_sub (PFloat 100) (sl p) = Ok (risk p).
Proof.
  intros cd r.
  split; [vm_compute; reflexivity|].
  apply (levels_are_rounded_to_two_decimals "LONG" (PFloat 100) cd r).
  - vm_compute. reflexivity.
  - discriminate.
Defined.

(** ** The worked examples (C8) *)

(** C8: LONG with entry 100 and low 98 and no reference levels gives stop
    97.75, target1 104.5 and target2 109.0; SHORT with entry 100, high 102,
    poc 99 and val 97 plans the structure-based targets with risk 2.25 and
    reward 1, and is rejected because 1 < 2.25.  The same holds when the
    prices arrive as JSON integers. *)
Theorem worked_examples :
  let long_data (low : pyval) : gmap string pyval := {[ "low" := low ]} in
  let short_data (high poc val : pyval) : gmap string pyval :=
    list_to_map [("high", high); ("poc", poc); ("val", val)] in
  let short_plan_100 :=
    Plan (PFloat 102.25) (PFloat 2.25) true (PFloat 99) (PFloat 97) in
  calculate_trade_levels "LONG" (PFloat 100) (long_data (PFloat 98))
    = (PFloat 97.75, PFloat 104.5, PFloat 109) /\
  calculate_trade_levels "LONG" (PFloat 100) (long_data (PInt 98))
    = (PFloat 97.75, PFloat 104.5, PFloat 109) /\
  trade_plan "SHORT" (PFloat 100)
      (short_data (PFloat 102) (PFloat 99) (PFloat 97))
    = Ok short_plan_100 /\
  reward_of "SHORT" (PFloat 100) short_plan_100 = Ok (PFloat 1) /\
  py_lt (PFloat 1) (risk short_plan_100) = Ok true /\
  calculate_trade_levels "SHORT" (PFloat 100)
      (short_data (PFloat 102) (PFloat 99) (PFloat 97))
    = (PNone, PNone, PNone) /\
  calculate_trade_levels "SHORT" (PFloat 100)
      (short_data (PInt 102) (PInt 99) (PInt 97))
    = (PNone, PNone, PNone).
Proof.
  intros long_data short_data short_plan_100.
  repeat split; vm_compute; reflexivity.
Qed.

(** ** Structure-based targets (C3) *)

(** What the code tests before it takes the reference levels as targets:
    both levels are truthy (so neither [None] nor zero) and ordered. *)
Lemma long_structure_iff (entry_price : pyval)
    (current_data : gmap string pyval) (p : plan) :
  long_plan entry_price current_data = Ok p ->
  let poc := dict_get current_data "poc" PNone in
  let vah := dict_get current_data "vah" PNone in
  (structure p = true <->
   py_truthy poc = true /\ py_truthy vah = true /\
   py_gt poc entry_price = Ok true /\ py_gt vah poc = Ok true) /\
  (structure p = true -> tp1 p = poc /\ tp2 p = vah) /\
  (structure p = false ->
   exists e r : float,
     to_float entry_price = Ok e /\ risk p = PFloat r /\
     tp1 p = PFloat (e + r * 2) /\ tp2 p = PFloat (e + r * 4)).
Proof.
  intros H poc vah. apply long_plan_inv in H.
  destruct H as (low & e & _ & He & _ & Hr & Hc & Ht).
  split; [ | split].
  - rewrite <- structure_test_true. fold poc vah in Hc. rewrite Hc.
    split; intros E; congruence.
  - intros E. rewrite E in Ht. exact Ht.
  - intros E. rewrite E in Ht. exists e, (e - (low - TICK_SIZE))%float. auto.
Qed.

Lemma short_structure_iff (entry_price : pyval)
    (current_data : gmap string pyval) (p : plan) :
  short_plan entry_price current_data = Ok p ->
  let poc := dict_get current_data "poc" PNone in
  let val := dict_get current_data "val" PNone in
  (structure p = true <->
   py_truthy poc = true /\ py_truthy val = true /\
   py_lt poc entry_price = Ok true /\ py_lt val poc = Ok true) /\
  (structure p = true -> tp1 p = poc /\ tp2 p = val) /\
  (structure p = false ->
   exists e r : float,
     to_float entry_price = Ok e /\ risk p = PFloat r /\
     tp1 p = PFloat (e - r * 2) /\ tp2 p = PFloat (e - r * 4)).
Proof.
  intros H poc val. apply short_plan_inv in H.
  destruct H as (high & e & _ & He & _ & Hr & Hc & Ht).
  split; [ | split].
  - rewrite <- structure_test_true. fold poc val in Hc. rewrite Hc.
    split; intros E; congruence.
  - intros E. rewrite E in Ht. exact Ht.
  - intros E. rewrite E in Ht. exists e, (high + TICK_SIZE - e)%float. auto.
Qed.

(** C3 at a failing input: a SHORT signal with entry 100, high 102, poc 50
    and val 0.  Both reference levels are provided and ordered (50 < 100 and
    0 < 50), yet the plan is not structure-based: the value area low 0 is
    falsy, and the fallback targets 95.5 and 91.0 are returned. *)
Theorem zero_reference_level_is_treated_as_missing :
  let cd : gmap string pyval :=
    list_to_map [("high", PInt 102); ("poc", PInt 50); ("val", PInt 0)] in
  provided cd "poc" /\ provided cd "val" /\
  py_lt (PInt 50) (PFloat 100) = Ok true /\
  py_lt (PInt 0) (PInt 50) = Ok true /\
  trade_plan "SHORT" (PFloat 100) cd
    = Ok (Plan (PFloat 102.25) (PFloat 2.25) false (PFloat 95.5) (PFloat 91)) /\
  calculate_trade_levels "SHORT" (PFloat 100) cd
    = (PFloat 102.25, PFloat 95.5, PFloat 91).
Proof.
  intros cd.
  split; [exists (PInt 50); split; [vm_compute; reflexivity | discriminate]|].
  split; [exists (PInt 0); split; [vm_compute; reflexivity | discriminate]|].
  repeat split; vm_compute; reflexivity.
Qed.

(** ** The webhook *)

Lemma any_keyword_str (ks : list string) (msg : string) :
  any_keyword ks (PStr msg) = Ok (existsb (fun k => str_in k msg) ks).
Proof.
  induction ks as [|k ks IH]; [reflexivity|].
  cbn [any_keyword py_in bind existsb].
  destruct (str_in k msg); [reflexivity | exact IH].
Qed.

Lemma derive_direction_str (msg : string) :
  derive_direction (PStr msg)
  = Ok (if str_in "BUY" (str_upper msg) then Some ("LONG", "BUY")
        else if str_in "SELL" (str_upper msg) then Some ("SHORT", "SELL")
        else None).
Proof.
  unfold derive_direction. cbn [py_upper bind].
  destruct (str_in "BUY" (str_upper msg)); [reflexivity|].
  destruct (str_in "SELL" (str_upper msg)); reflexivity.
Qed.

Lemma dict_get_lookup (d : gmap string pyval) (k : string) (dflt v : pyval) :
  d !! k = Some v -> dict_get d k dflt = v.
Proof. unfold dict_get. intros ->. reflexivity. Qed.

Lemma dict_get_missing (d : gmap string pyval) (k : string) (dflt : pyval) :
  d !! k = None -> dict_get d k dflt = dflt.
Proof. unfold dict_get. intros ->. reflexivity. Qed.

Lemma dict_get_insert_ne (d : gmap string pyval) (k k' : string)
    (v dflt : pyval) :
  k <> k' -> dict_get (<[k := v]> d) k' dflt = dict_get d k' dflt.
Proof. unfold dict_get. intros N. rewrite lookup_insert_ne by exact N. reflexivity. Qed.

Section WebhookProperties.

Variable float_of_str : string -> exc float.
Variable bot_send_message : string -> option string -> exc unit.
Variable entry_text :
  string -> pyval -> float -> pyval -> pyval -> pyval -> pyval -> string.

(** X8: what the management branch does: when the price can be read, a
    message that holds one of the keywords TP1, TP2, BE, SL in upper case is
    forwarded to the bot as it is and answered as a management alert (or
    with the bot's error), whatever else the message and the payload hold. *)
Lemma management_passthrough (data : gmap string pyval) (msg : string)
    (price : float) :
  data !! "message" = Some (PStr msg) ->
  existsb (fun k => str_in k msg) management_keywords = true ->
  py_float float_of_str (dict_get data "close" (PInt 0)) = Ok price ->
  webhook float_of_str bot_send_message entry_text data
  = match bot_send_message msg None with
    | Ok _ => Management
    | Raise e => Error e
    end.
Proof.
  intros Hm Hk Hp. unfold webhook, try_webhook.
  rewrite Hp. cbn [bind].
  rewrite (dict_get_lookup _ _ _ _ Hm), derive_direction_str. cbn [bind].
  rewrite any_keyword_str, Hk. cbn [bind].
  destruct (bot_send_message msg None); reflexivity.
Qed.

(** C5 at failing inputs: a message that holds a maintenance keyword in
    lower case is not taken as a management alert.  "tp1 hit" is answered
    with unknown_alert (HTTP 400); "sl moved, buy" goes through the level
    computation, which here rejects the signal. *)
Theorem lowercase_keyword_is_not_management :
  webhook float_of_str bot_send_message entry_text
      {[ "message" := PStr "tp1 hit" ]} = UnknownAlert /\
  http_status (webhook float_of_str bot_send_message entry_text
                 {[ "message" := PStr "tp1 hit" ]}) = 400 /\
  webhook float_of_str bot_send_message entry_text
      (list_to_map [("message", PStr "sl moved, buy");
                    ("close", PInt 100); ("low", PInt 200)])
    = RejectedRR.
Proof. repeat split; vm_compute; reflexivity. Qed.

(** C9: a message that holds both BUY and SELL (in any case) and no
    management keyword is given the direction LONG, and the request is
    handled as a LONG entry alert. *)
Theorem buy_takes_precedence_over_sell (data : gmap string pyval)
    (msg : string) (price : float) :
  data !! "message" = Some (PStr msg) ->
  str_in "BUY" (str_upper msg) = true ->
  str_in "SELL" (str_upper msg) = true ->
  existsb (fun k => str_in k msg) management_keywords = false ->
  py_float float_of_str (dict_get data "close" (PInt 0)) = Ok price ->
  derive_direction (PStr msg) = Ok (Some ("LONG", "BUY")) /\
  try_webhook float_of_str bot_send_message entry_text data
  = entry_alert bot_send_message entry_text "LONG" "BUY"
      (dict_get data "ticker" (PStr "N/A")) price data.
Proof.
  intros Hm Hb _ Hk Hp.
  assert (D : derive_direction (PStr msg) = Ok (Some ("LONG", "BUY")))
    by (rewrite derive_direction_str, Hb; reflexivity).
  split; [exact D|].
  unfold try_webhook. rewrite Hp. cbn [bind].
  rewrite (dict_get_lookup _ _ _ _ Hm), D. cbn [bind].
  rewrite any_keyword_str, Hk. reflexivity.
Qed.

(** A payload that brings neither a bar nor reference levels is given the
    bar [price - 2, price + 2]; at the entry price 0.0 its levels are -2.25,
    4.5 and 9.0 for a BUY and 2.25, -4.5 and -9.0 for a SELL. *)
Lemma bare_alert_at_zero (data : gmap string pyval) (direction action : string)
    (ticker : pyval) :
  data !! "high" = None -> data !! "low" = None ->
  data !! "vah" = None -> data !! "poc" = None -> data !! "val" = None ->
  (direction = "LONG" ->
   entry_alert bot_send_message entry_text direction action ticker 0 data
   = (_ <- bot_send_message
             (entry_text action ticker 0%float (PFloat (-2.25)) (PFloat 4.5)
                (PFloat 9) (PFloat 4)) (Some "HTML") ;;
      Ok (Entry 0 (PFloat (-2.25)) (PFloat 4.5) (PFloat 9) (PFloat 4)))) /\
  (direction = "SHORT" ->
   entry_alert bot_send_message entry_text direction action ticker 0 data
   = (_ <- bot_send_message
             (entry_text action ticker 0%float (PFloat 2.25) (PFloat (-4.5))
                (PFloat (-9)) (PFloat 4)) (Some "HTML") ;;
      Ok (Entry 0 (PFloat 2.25) (PFloat (-4.5)) (PFloat (-9)) (PFloat 4)))).
Proof.
  intros Hh Hl Hvah Hpoc Hval.
  unfold entry_alert, market_data.
  rewrite (dict_get_missing _ _ _ Hh), (dict_get_missing _ _ _ Hl),
    (dict_get_missing _ _ _ Hvah), (dict_get_missing _ _ _ Hpoc),
    (dict_get_missing _ _ _ Hval).
  split; intros ->; vm_compute; reflexivity.
Qed.

(** C10, amended: a payload without the 'close' field gets the entry price
    0.0, and the request is handled exactly as the same payload with
    close = 0 is; the missing field raises no error by itself.  When the
    payload brings no bar and no reference levels either, a BUY or SELL
    alert is not rejected: its levels are computed around 0.0 and the entry
    notification is sent. *)
Theorem missing_close_is_entry_zero (data : gmap string pyval) :
  data !! "close" = None ->
  py_float float_of_str (dict_get data "close" (PInt 0)) = Ok 0%float /\
  webhook float_of_str bot_send_message entry_text data
  = webhook float_of_str bot_send_message entry_text
      (<["close" := PInt 0]> data) /\
  forall msg : string,
    data !! "message" = Some (PStr msg) ->
    existsb (fun k => str_in k msg) management_keywords = false ->
    data !! "high" = None -> data !! "low" = None ->
    data !! "vah" = None -> data !! "poc" = None -> data !! "val" = None ->
    let ticker := dict_get data "ticker" (PStr "N/A") in
    let reply text levels :=
      match bot_send_message text (Some "HTML") with
      | Ok _ => levels
      | Raise e => Error e
      end in
    (str_in "BUY" (str_upper msg) = true ->
     webhook float_of_str bot_send_message entry_text data
     = reply (entry_text "BUY" ticker 0%float (PFloat (-2.25)) (PFloat 4.5)
                (PFloat 9) (PFloat 4))
         (Entry 0 (PFloat (-2.25)) (PFloat 4.5) (PFloat 9) (PFloat 4))) /\
    (str_in "BUY" (str_upper msg) = false ->
     str_in "SELL" (str_upper msg) = true ->
     webhook float_of_str bot_send_message entry_text data
     = reply (entry_text "SELL" ticker 0%float (PFloat 2.25) (PFloat (-4.5))
                (PFloat (-9)) (PFloat 4))
         (Entry 0 (PFloat 2.25) (PFloat (-4.5)) (PFloat (-9)) (PFloat 4))).
Proof.
  intros Hc.
  assert (P : py_float float_of_str (dict_get data "close" (PInt 0)) = Ok 0%float)
    by (rewrite (dict_get_missing _ _ _ Hc); reflexivity).
  split; [exact P|]. split.
  - unfold webhook, try_webhook.
    rewrite P.
    assert (P' : py_float float_of_str
                   (dict_get (<["close" := PInt 0]> data) "close" (PInt 0))
                 = Ok 0%float).
    { unfold dict_get. rewrite lookup_insert_eq. reflexivity. }
    rewrite P'. cbn [bind].
    rewrite !(dict_get_insert_ne data "close") by discriminate.
    unfold entry_alert, market_data.
    rewrite !(dict_get_insert_ne data "close") by discriminate.
    reflexivity.
  - intros msg Hm Hk Hh Hl Hvah Hpoc Hval ticker reply.
    destruct (bare_alert_at_zero data "LONG" "BUY" ticker Hh Hl Hvah Hpoc Hval)
      as [Long _].
    destruct (bare_alert_at_zero data "SHORT" "SELL" ticker Hh Hl Hvah Hpoc Hval)
      as [_ Short].
    unfold webhook, try_webhook. rewrite P. cbn [bind].
    rewrite (dict_get_lookup _ _ _ _ Hm), derive_direction_str. cbn [bind].
    rewrite any_keyword_str, Hk. cbn [bind].
    fold ticker. split.
    + intros ->. rewrite (Long eq_refl). clear Long Short.
      unfold reply, bind. destruct (bot_send_message _ _); reflexivity.
    + intros -> ->. rewrite (Short eq_refl). clear Long Short.
      unfold reply, bind. destruct (bot_send_message _ _); reflexivity.
Qed.

End WebhookProperties.

Lemma buy_takes_precedence_over_sell_witness :
  let data : gmap string pyval :=
    list_to_map [("message", PStr "Buy the dip, do not sell");
                 ("close", PFloat 4005.5)] in
  derive_direction (PStr "Buy the dip, do not sell")
    = Ok (Some ("LONG", "BUY")) /\
  try_webhook no_float_of_str delivering_bot action_only_text data
    = entry_alert delivering_bot action_only_text "LONG" "BUY"
        (dict_get data "ticker" (PStr "N/A")) 4005.5 data.
Proof.
  intros data.
  apply (buy_takes_precedence_over_sell no_float_of_str delivering_bot
           action_only_text data "Buy the dip, do not sell" 4005.5);
    vm_compute; reflexivity.
Defined.

(** C10, as stated, fails: the payload with message BUY and low 4000 lacks
    only 'close'; the substituted entry price 0.0 gives a negative risk and
    the request is answered with the rejection, while the same payload with
    close 4005 is accepted. *)
Lemma missing_close_can_cause_rejection :
  let data : gmap string pyval :=
    list_to_map [("message", PStr "BUY"); ("low", PInt 4000)] in
  data !! "close" = None /\
  webhook no_float_of_str delivering_bot action_only_text data = RejectedRR /\
  webhook no_float_of_str delivering_bot action_only_text
      (<["close" := PInt 4005]> data)
    = Entry 4005 (PFloat 3999.75) (PFloat 4015.5) (PFloat 4026) (PFloat 4).
Proof. intros data. repeat split; vm_compute; reflexivity. Qed.

Lemma missing_close_is_entry_zero_witness :
  let data : gmap string pyval := {[ "message" := PStr "BUY" ]} in
  data !! "close" = None /\
  webhook no_float_of_str delivering_bot action_only_text data
  = Entry 0 (PFloat (-2.25)) (PFloat 4.5) (PFloat 9) (PFloat 4).
Proof.
  intros data. split; [vm_compute; reflexivity|].
  apply (proj2 (proj2 (missing_close_is_entry_zero no_float_of_str
                         delivering_bot action_only_text data
                         ltac:(vm_compute; reflexivity))) "BUY");
    vm_compute; reflexivity.
Defined.

(** * Further properties of the calculator *)

Lemma py_round_keeps_number (v r : pyval) (n : nat) :
  py_round v n = Ok r -> as_number r <> None.
Proof.
  destruct v as [|b|z|x|s]; simpl; intros H; try discriminate;
    injection H as <-; discriminate.
Qed.

Lemma calculate_trade_levels_raise (direction : string) (entry_price : pyval)
    (current_data : gmap string pyval) (e : pyexc) :
  try_levels direction entry_price current_data = Raise e ->
  calculate_trade_levels direction entry_price current_data = rejected.
Proof. unfold calculate_trade_levels. intros ->. reflexivity. Qed.

(** The result is the rejected triple or a float stop with two numeric
    targets. *)
Lemma levels_shape (direction : string) (entry_price : pyval)
    (current_data : gmap string pyval) :
  calculate_trade_levels direction entry_price current_data = rejected \/
  exists (x : float) (t1 t2 : pyval),
    calculate_trade_levels direction entry_price current_data
      = (PFloat x, t1, t2) /\
    as_number t1 <> None /\ as_number t2 <> None.
Proof.
  destruct (trade_plan direction entry_price current_data) as [p|e] eqn:Hp.
  - destruct (reward_of direction entry_price p) as [reward|e] eqn:Hw.
    + destruct (reward_comparable _ _ _ _ _ Hp Hw) as ([|] & Hlt).
      * left. apply (gate_rejects _ _ _ _ _ Hp Hw Hlt).
      * right.
        destruct (gate_passes _ _ _ _ _ Hp Hw Hlt)
          as (s & t1 & t2 & Hs & Ht1 & Ht2 & _ & E).
        destruct (plan_numbers _ _ _ _ Hp) as ((x & Hx) & _).
        rewrite Hx in Hs. simpl in Hs. injection Hs as <-.
        exists (float_round x 2), t1, t2. split; [exact E|].
        split; eapply py_round_keeps_number; eassumption.
    + left. apply (calculate_trade_levels_raise _ _ _ e).
      unfold try_levels. rewrite Hp. cbn [bind]. unfold gate. rewrite Hw.
      reflexivity.
  - left. apply (calculate_trade_levels_raise _ _ _ e).
    unfold try_levels. rewrite Hp. reflexivity.
Qed.

(** X1: [calculate_trade_levels] returns either the rejected triple
    [(None, None, None)] or a stop that is a float together with two targets
    that are numbers; so its first component is [None] exactly when the
    signal is rejected, which is the test its caller makes. *)
Theorem levels_are_rejected_or_numeric (direction : string)
    (entry_price : pyval) (current_data : gmap string pyval) :
  (calculate_trade_levels direction entry_price current_data = rejected \/
   exists (x : float) (t1 t2 : pyval),
     calculate_trade_levels direction entry_price current_data
       = (PFloat x, t1, t2) /\
     as_number t1 <> None /\ as_number t2 <> None) /\
  (fst (fst (calculate_trade_levels direction entry_price current_data))
     = PNone <->
   calculate_trade_levels direction entry_price current_data = rejected).
Proof.
  split; [apply levels_shape|].
  destruct (levels_shape direction entry_price current_data)
    as [R|(x & t1 & t2 & E & _)].
  - rewrite R. split; reflexivity.
  - rewrite E. split; [discriminate|]. unfold rejected. intros C.
    inversion C.
Qed.

(** A stop or a risk cannot be computed from an entry price or a bar
    extreme that is not a number. *)
Lemma non_number_raises (direction : string) (entry_price : pyval)
    (current_data : gmap string pyval) :
  as_number entry_price = None \/
  as_number (dict_get current_data (if is_long direction then "low" else "high")
               entry_price) = None ->
  exists e, try_levels direction entry_price current_data = Raise e.
Proof.
  intros H. unfold try_levels, trade_plan.
  assert (T : forall v, as_number v = None -> to_float v = Raise TypeError)
    by (intros v Hv; unfold to_float; rewrite Hv; reflexivity).
  destruct (is_long direction).
  - unfold long_plan. rewrite py_sub_float_r.
    destruct (to_float (dict_get current_data "low" entry_price))
      as [low|e] eqn:Hl; cbn [bind]; [ | eauto].
    rewrite py_sub_float_r.
    destruct H as [H|H].
    + rewrite (T _ H). cbn [bind]. eauto.
    + rewrite (T _ H) in Hl. discriminate.
  - unfold short_plan. rewrite py_add_float_r.
    destruct (to_float (dict_get current_data "high" entry_price))
      as [high|e] eqn:Hh; cbn [bind]; [ | eauto].
    rewrite py_sub_float_l.
    destruct H as [H|H].
    + rewrite (T _ H). cbn [bind]. eauto.
    + rewrite (T _ H) in Hh. discriminate.
Qed.

(** X2: when the entry price, or the bar low of a LONG (the bar high
    otherwise), is not a number ([None] or a string), the signal is
    rejected. *)
Theorem non_numeric_input_is_rejected (direction : string)
    (entry_price : pyval) (current_data : gmap string pyval) :
  as_number entry_price = None \/
  as_number (dict_get current_data (if is_long direction then "low" else "high")
               entry_price) = None ->
  calculate_trade_levels direction entry_price current_data
  = (PNone, PNone, PNone).
Proof.
  intros H. destruct (non_number_raises _ _ _ H) as (e & He).
  apply (calculate_trade_levels_raise _ _ _ e He).
Qed.

Lemma non_numeric_input_is_rejected_witness :
  as_number (dict_get {[ "low" := PNone ]} "low" (PFloat 100)) = None /\
  calculate_trade_levels "LONG" (PFloat 100) {[ "low" := PNone ]}
  = (PNone, PNone, PNone).
Proof.
  split; [vm_compute; reflexivity|].
  apply (non_numeric_input_is_rejected "LONG" (PFloat 100)
           {[ "low" := PNone ]}).
  right. vm_compute. reflexivity.
Defined.

(** ** Not-a-number *)

Lemma Prim2SF_nan : Prim2SF nan = S754_nan.
Proof. reflexivity. Qed.

Lemma sub_nan_r (x : float) : (x - nan)%float = nan.
Proof.
  apply Prim2SF_inj. rewrite sub_spec, Prim2SF_nan.
  destruct (Prim2SF x); reflexivity.
Qed.

Lemma sub_nan_l (x : float) : (nan - x)%float = nan.
Proof.
  apply Prim2SF_inj. rewrite sub_spec, Prim2SF_nan.
  destruct (Prim2SF x); reflexivity.
Qed.

Lemma ltb_nan_r (x : float) : (x <? nan)%float = false.
Proof.
  rewrite FloatAxioms.ltb_spec, Prim2SF_nan.
  destruct (Prim2SF x); reflexivity.
Qed.

Lemma py_lt_nan (reward : pyval) :
  as_number reward <> None -> py_lt reward (PFloat nan) = Ok false.
Proof.
  intros N. destruct reward as [|b|n|x|s];
    try (exfalso; apply N; reflexivity).
  - reflexivity.
  - reflexivity.
  - simpl. rewrite ltb_nan_r. reflexivity.
Qed.

(** X5: a bar low (LONG) or bar high (otherwise) that is NaN is never
    rejected by the risk-reward test: the risk is NaN, no reward compares
    below it, and the levels are returned with the stop NaN. *)
Theorem nan_bar_passes_the_gate (direction : string) (entry_price : pyval)
    (current_data : gmap string pyval) (p : plan) (reward : pyval) :
  to_float (dict_get current_data (if is_long direction then "low" else "high")
              entry_price) = Ok nan ->
  trade_plan direction entry_price current_data = Ok p ->
  reward_of direction entry_price p = Ok reward ->
  risk p = PFloat nan /\
  exists t1 t2 : pyval,
    py_round (tp1 p) 2 = Ok t1 /\ py_round (tp2 p) 2 = Ok t2 /\
    calculate_trade_levels direction entry_price current_data
    = (PFloat nan, t1, t2).
Proof.
  intros Hbar Hp Hw.
  assert (R : sl p = PFloat nan /\ risk p = PFloat nan).
  { destruct (is_long direction) eqn:D.
    - rewrite trade_plan_long in Hp by exact D. apply long_plan_inv in Hp.
      destruct Hp as (low & e & Hl & _ & Hs & Hr & _).
      rewrite Hbar in Hl. injection Hl as <-.
      rewrite Hs, Hr.
      change (nan - TICK_SIZE)%float with nan. rewrite sub_nan_r. auto.
    - rewrite trade_plan_short in Hp by exact D. apply short_plan_inv in Hp.
      destruct Hp as (high & e & Hh & _ & Hs & Hr & _).
      rewrite Hbar in Hh. injection Hh as <-.
      rewrite Hs, Hr.
      change (nan + TICK_SIZE)%float with nan. rewrite sub_nan_l. auto. }
  destruct R as [Hs Hr]. split; [exact Hr|].
  assert (Hlt : py_lt reward (risk p) = Ok false).
  { destruct (reward_comparable _ _ _ _ _ Hp Hw) as (b & Hb).
    rewrite Hr in *. apply py_lt_nan.
    apply (py_lt_numbers _ _ _ Hb). discriminate. }
  destruct (gate_passes _ _ _ _ _ Hp Hw Hlt)
    as (s & t1 & t2 & Hs' & Ht1 & Ht2 & _ & E).
  rewrite Hs in Hs'. injection Hs' as <-.
  exists t1, t2. auto.
Qed.

Lemma nan_bar_passes_the_gate_witness :
  let cd : gmap string pyval := {[ "low" := PFloat nan ]} in
  let p := Plan (PFloat nan) (PFloat nan) false (PFloat nan) (PFloat nan) in
  to_float (dict_get cd "low" (PFloat 100)) = Ok nan /\
  trade_plan "LONG" (PFloat 100) cd = Ok p /\
  reward_of "LONG" (PFloat 100) p = Ok (PFloat nan) /\
  risk p = PFloat nan /\
  exists t1 t2 : pyval,
    py_round (tp1 p) 2 = Ok t1 /\ py_round (tp2 p) 2 = Ok t2 /\
    calculate_trade_levels "LONG" (PFloat 100) cd = (PFloat nan, t1, t2).
Proof.
  intros cd p.
  split; [vm_compute; reflexivity|].
  split; [vm_compute; reflexivity|].
  split; [vm_compute; reflexivity|].
  apply (nan_bar_passes_the_gate "LONG" (PFloat 100) cd p (PFloat nan));
    vm_compute; reflexivity.
Defined.

(** * Further properties of the webhook *)

(** ** Responses *)

Lemma management_passthrough_witness :
  let data : gmap string pyval :=
    list_to_map [("message", PStr "BEST BUY: TP1 reached"); ("low", PStr "?")] in
  webhook no_float_of_str delivering_bot action_only_text data = Management.
Proof.
  intros data.
  apply (management_passthrough no_float_of_str delivering_bot
           action_only_text data "BEST BUY: TP1 reached" 0);
    vm_compute; reflexivity.
Defined.

(** The bar handed to the calculator holds the payload's own high and low
    when it has them. *)
Lemma market_data_bar (price : float) (data : gmap string pyval)
    (dflt : pyval) :
  dict_get (market_data price data) "low" dflt
    = dict_get data "low" (PFloat (price - 2)) /\
  dict_get (market_data price data) "high" dflt
    = dict_get data "high" (PFloat (price + 2)).
Proof. split; reflexivity. Qed.

Section WebhookResponses.

Variable float_of_str : string -> exc float.
Variable bot_send_message : string -> option string -> exc unit.
Variable entry_text :
  string -> pyval -> float -> pyval -> pyval -> pyval -> pyval -> string.

Lemma entry_alert_rejected (direction action : string) (ticker : pyval)
    (price : float) (data : gmap string pyval) :
  calculate_trade_levels direction (PFloat price) (market_data price data)
    = rejected ->
  entry_alert bot_send_message entry_text direction action ticker price data
  = Ok RejectedRR.
Proof. unfold entry_alert. intros ->. reflexivity. Qed.

Lemma entry_alert_inv (direction action : string) (ticker : pyval)
    (price : float) (data : gmap string pyval) (r : response) :
  entry_alert bot_send_message entry_text direction action ticker price data
    = Ok r ->
  (r = RejectedRR /\
   calculate_trade_levels direction (PFloat price) (market_data price data)
     = rejected) \/
  exists s t1 t2 rr : pyval,
    calculate_trade_levels direction (PFloat price) (market_data price data)
      = (s, t1, t2) /\
    r = Entry price s t1 t2 rr /\
    bot_send_message (entry_text action ticker price s t1 t2 rr) (Some "HTML")
      = Ok tt.
Proof.
  intros H.
  destruct (levels_shape direction (PFloat price) (market_data price data))
    as [R|(x & t1 & t2 & E & _)].
  - left. rewrite (entry_alert_rejected _ _ _ _ _ R) in H.
    injection H as <-. auto.
  - right. unfold entry_alert in H. rewrite E in H.
    inv_bind H. inv_bind H. inv_bind H. inv_bind H. inv_bind H.
    injection H as <-. destruct a3.
    exists (PFloat x), t1, t2, a2. auto.
Qed.


(** X12: a success response is given only after the bot has taken the
    text.  A management response means the message holds a keyword and was
    delivered as it is; an entry response carries the price read from
    'close' and the levels [calculate_trade_levels] returned for the bar of
    the payload, and its notification was delivered. *)
Theorem success_implies_delivery (data : gmap string pyval) :
  match webhook float_of_str bot_send_message entry_text data with
  | Management =>
      exists msg : string,
        dict_get data "message" (PStr "") = PStr msg /\
        existsb (fun k => str_in k msg) management_keywords = true /\
        bot_send_message msg None = Ok tt
  | Entry price s t1 t2 rr =>
      py_float float_of_str (dict_get data "close" (PInt 0)) = Ok price /\
      exists direction action : string,
        calculate_trade_levels direction (PFloat price)
          (market_data price data) = (s, t1, t2) /\
        bot_send_message
          (entry_text action (dict_get data "ticker" (PStr "N/A")) price
             s t1 t2 rr) (Some "HTML") = Ok tt
  | RejectedRR | UnknownAlert | Error _ => True
  end.
Proof.
  unfold webhook.
  destruct (try_webhook float_of_str bot_send_message entry_text data)
    as [r|e] eqn:H; [ | exact I].
  unfold try_webhook in H.
  apply bind_Ok in H. destruct H as (price & Hp & H).
  apply bind_Ok in H. destruct H as (direction & Hd & H).
  apply bind_Ok in H. destruct H as (management & Hk & H).
  destruct (dict_get data "message" (PStr "")) as [|b|n|x|msg] eqn:Hm;
    try discriminate.
  rewrite any_keyword_str in Hk. injection Hk as Hk.
  destruct management.
  - apply bind_Ok in H. destruct H as ([] & Hs & H). injection H as <-.
    exists msg. auto.
  - destruct direction as [[direction action]|].
    + apply entry_alert_inv in H.
      destruct H as [[-> _]|(s & t1 & t2 & rr & E & -> & Hs)]; [exact I|].
      split; [exact Hp|]. exists direction, action. auto.
    + injection H as <-. exact I.
Qed.

(** X13: for an entry alert the answer is the rejection with reason
    RR < 1:1 exactly when [calculate_trade_levels] returns the rejected
    triple for the bar of the payload. *)
Theorem rejection_response_iff_levels_rejected (data : gmap string pyval)
    (msg direction action : string) (price : float) :
  py_float float_of_str (dict_get data "close" (PInt 0)) = Ok price ->
  dict_get data "message" (PStr "") = PStr msg ->
  existsb (fun k => str_in k msg) management_keywords = false ->
  derive_direction (PStr msg) = Ok (Some (direction, action)) ->
  (webhook float_of_str bot_send_message entry_text data = RejectedRR <->
   calculate_trade_levels direction (PFloat price) (market_data price data)
   = rejected).
Proof.
  intros Hp Hm Hk Hd.
  assert (W : webhook float_of_str bot_send_message entry_text data
              = match entry_alert bot_send_message entry_text direction action
                        (dict_get data "ticker" (PStr "N/A")) price data with
                | Ok r => r
                | Raise e => Error e
                end).
  { unfold webhook, try_webhook. rewrite Hp. cbn [bind].
    rewrite Hm, Hd. cbn [bind]. rewrite any_keyword_str, Hk. reflexivity. }
  rewrite W. split.
  - destruct (entry_alert _ _ _ _ _ _ _) as [r|e] eqn:E; [ | discriminate].
    intros ->. apply entry_alert_inv in E.
    destruct E as [[_ R]|(s & t1 & t2 & rr & _ & C & _)];
      [exact R | discriminate].
  - intros R. rewrite (entry_alert_rejected _ _ _ _ _ R). reflexivity.
Qed.

(** X14: an entry alert whose bar low (for a BUY; bar high for a SELL) is
    present in the payload but is not a number, such as null or a string, is
    answered with the rejection RR < 1:1: the default bar is not used and
    no error is reported. *)
Theorem malformed_bar_is_answered_as_rejection (data : gmap string pyval)
    (msg direction action : string) (price : float) (v : pyval) :
  py_float float_of_str (dict_get data "close" (PInt 0)) = Ok price ->
  dict_get data "message" (PStr "") = PStr msg ->
  existsb (fun k => str_in k msg) management_keywords = false ->
  derive_direction (PStr msg) = Ok (Some (direction, action)) ->
  data !! (if is_long direction then "low" else "high") = Some v ->
  as_number v = None ->
  webhook float_of_str bot_send_message entry_text data = RejectedRR.
Proof.
  intros Hp Hm Hk Hd Hv Nv.
  unfold webhook, try_webhook. rewrite Hp. cbn [bind].
  rewrite Hm, Hd. cbn [bind]. rewrite any_keyword_str, Hk.
  rewrite entry_alert_rejected; [reflexivity|].
  destruct (non_number_raises direction (PFloat price)
              (market_data price data)) as (e & He).
  - right. destruct (market_data_bar price data (PFloat price)) as [L H].
    destruct (is_long direction).
    + rewrite L, (dict_get_lookup _ _ _ _ Hv). exact Nv.
    + rewrite H, (dict_get_lookup _ _ _ _ Hv). exact Nv.
  - apply (calculate_trade_levels_raise _ _ _ e He).
Qed.

End WebhookResponses.


Lemma rejection_response_iff_levels_rejected_witness :
  let data : gmap string pyval :=
    list_to_map [("message", PStr "sell"); ("close", PFloat 100);
                 ("high", PFloat 102); ("poc", PFloat 99);
                 ("val", PFloat 97)] in
  webhook no_float_of_str delivering_bot action_only_text data = RejectedRR <->
  calculate_trade_levels "SHORT" (PFloat 100) (market_data 100 data)
  = rejected.
Proof.
  intros data.
  apply (rejection_response_iff_levels_rejected no_float_of_str delivering_bot
           action_only_text data "sell" "SHORT" "SELL" 100);
    vm_compute; reflexivity.
Defined.

Lemma malformed_bar_is_answered_as_rejection_witness :
  let data : gmap string pyval :=
    list_to_map [("message", PStr "BUY"); ("close", PFloat 100);
                 ("low", PNone)] in
  webhook no_float_of_str delivering_bot action_only_text data = RejectedRR.
Proof.
  intros data.
  apply (malformed_bar_is_answered_as_rejection no_float_of_str delivering_bot
           action_only_text data "BUY" "LONG" "BUY" 100 PNone);
    vm_compute; reflexivity.
Defined.
